(** * mcp-todo: the session todo store of [server.py]

    A shallow embedding of [src/server.py]: the per-session store
    [_session_todos], the readers [_get_session_key] and [_get_todos], the
    formatter [_format_todos] and the tool [write_todos], followed by the
    properties of the specification that are settled on them.

    Python values are embedded as the inductive [pyval]; a Python [dict] with
    text keys is a [gmap string pyval]; the module-level store is threaded
    explicitly; an exception is a [Raise] result. *)

From Stdlib Require Import ZArith String Ascii DecimalString.
From Stdlib Require Import Floats.SpecFloat.
From stdpp Require Import gmap strings list fin_maps.

Set Warnings "-register-all".

(** ** Python values *)

(** The values a decoded request can hold: [None], [bool], [int], [float],
    [str], [list] and [dict] with text keys. Text is kept as its UTF-8 bytes:
    emptiness, equality and concatenation are the same on both sides. *)
Inductive pyval :=
  | PNone
  | PBool (b : bool)
  | PInt (n : Z)
  | PFloat (f : spec_float)
  | PStr (s : string)
  | PList (l : list pyval)
  | PDict (d : gmap string pyval).

Abbreviation pydict := (gmap string pyval).

(** [bool(v)]: what [not v], [a or b] and [if v] test. *)
Definition truthy (v : pyval) : bool :=
  match v with
  | PNone => false
  | PBool b => b
  | PInt n => negb (n =? 0)%Z
  | PFloat (S754_zero _) => false
  | PFloat _ => true
  | PStr s => negb (String.eqb s "")
  | PList l => negb (Nat.eqb (length l) 0)
  | PDict d => negb (Nat.eqb (size d) 0)
  end.

(** [a or b] *)
Definition py_or (a b : pyval) : pyval := if truthy a then a else b.

(** [v == s] for a text literal [s]: only a [str] equals a [str]. *)
Definition py_eq_str (v : pyval) (s : string) : bool :=
  match v with
  | PStr s' => String.eqb s' s
  | _ => false
  end.

(** [v in (s1, ..., sn)] for a tuple of text literals. *)
Definition py_in_strs (v : pyval) (ss : list string) : bool :=
  existsb (py_eq_str v) ss.
Arguments py_in_strs : simpl never.

(** [d.get(key, dflt)] *)
Definition dict_get (d : pydict) (key : string) (dflt : pyval) : pyval :=
  default dflt (d !! key).

(** ** Normalisation: the loop of [write_todos] (lines 75-94) *)

Definition valid_statuses : list string := ["pending"; "in_progress"; "completed"].

(** The dict literal appended to [validated_todos]. *)
Definition todo_dict (content active_form status : pyval) : pydict :=
  {[ "content" := content; "activeForm" := active_form; "status" := status ]}.

(** One iteration of the loop: [None] is [continue], [Some d] is the
    appended dict. *)
Definition validate_todo (todo : pyval) : option pydict :=
  match todo with
  | PDict d =>
      let content := dict_get d "content" (PStr "") in
      let active_form := dict_get d "activeForm" (PStr "") in
      let status := dict_get d "status" (PStr "pending") in
      if negb (truthy content) then None
      else
        let status :=
          if negb (py_in_strs status valid_statuses) then PStr "pending" else status in
        Some (todo_dict content (py_or active_form content) status)
  | _ => None
  end.
Arguments validate_todo : simpl never.

(** [for todo in todos: ...], with [validated_todos] as the accumulator. *)
Fixpoint validate_loop (todos : list pyval) (validated_todos : list pydict)
  : list pydict :=
  match todos with
  | [] => validated_todos
  | todo :: rest =>
      match validate_todo todo with
      | None => validate_loop rest validated_todos
      | Some d => validate_loop rest (validated_todos ++ [d])
      end
  end.

(** The value of [validated_todos] when the loop ends. *)
Definition validated (todos : list pyval) : list pydict := validate_loop todos [].

(** ** Sessions and the store *)

(** What [_get_session_key] reads of the framework's [Context]: two
    attributes, each [None] or text. *)
Record Context := { session_id : option string; client_id : option string }.

(** [a or b] where [a] is [None] or text and [b] is text. *)
Definition opt_or (a : option string) (b : string) : string :=
  match a with
  | Some s => if String.eqb s "" then b else s
  | None => b
  end.

(** [return ctx.session_id or ctx.client_id or "default"] *)
Definition _get_session_key (ctx : Context) : string :=
  opt_or (session_id ctx) (opt_or (client_id ctx) "default").

(** The module-level [_session_todos: dict[str, list[dict]]]. *)
Abbreviation store := (gmap string (list pydict)).

(** [_session_todos = {}] at import. *)
Definition _session_todos_init : store := ∅.

(** [_get_todos]: the list of the session and the store after the call. *)
Definition _get_todos (session_key : string) (σ : store) : list pydict * store :=
  match σ !! session_key with
  | None => ([], <[session_key := []]> σ)
  | Some todos => (todos, σ)
  end.

(** ** Results of calls that can raise *)

Inductive pyexc := TypeError.

Inductive res (A : Type) :=
  | Ok (a : A)
  | Raise (e : pyexc).
Arguments Ok {A} a.
Arguments Raise {A} e.

Definition res_bind {A B} (r : res A) (k : A → res B) : res B :=
  match r with
  | Ok a => k a
  | Raise e => Raise e
  end.

Notation "x ←! r ; k" := (res_bind r (fun x => k))
  (at level 100, r at next level, right associativity).

(** ** Text building *)

(** The line feed of ["\n"]. *)
Definition nl : string := String "010"%char "".

(** [str(n)] of a non-negative and of any [int], in decimal. Integers are
    unbounded and the conversion is total: limits of the interpreter (memory,
    recursion depth, the configurable cap on the digits of a converted
    integer) are outside the model. *)
Definition dec_nat (n : nat) : string := NilEmpty.string_of_uint (Nat.to_uint n).
Definition dec_int (n : Z) : string := NilEmpty.string_of_int (Z.to_int n).

(** [sum(1 for t in l if p(t))] *)
Definition count_if {A} (p : A → bool) (l : list A) : nat :=
  length (List.filter p l).

(** [d.get(key, "[ ]")] on the icon table: a [list] or a [dict] key is
    unhashable and raises; a key that is not text equals no key of the table. *)
Definition status_icons : gmap string string :=
  {[ "pending" := "[ ]"; "in_progress" := "[~]"; "completed" := "[x]" ]}.

Definition status_icon_get (key : pyval) : res string :=
  match key with
  | PList _ | PDict _ => Raise TypeError
  | PStr s => Ok (default "[ ]" (status_icons !! s))
  | _ => Ok "[ ]"
  end.

Section Formatter.

(** [format(v, "")] of a [float], a [list] or a [dict] is the interpreter's
    [repr]; it is taken as given. *)
Variable py_repr : pyval → string.

(** What an f-string field [{v}] expands to. *)
Definition py_str (v : pyval) : string :=
  match v with
  | PStr s => s
  | PNone => "None"
  | PBool true => "True"
  | PBool false => "False"
  | PInt n => dec_int n
  | _ => py_repr v
  end.

(** [f"{i}. {status_icon} {label}"] *)
Definition todo_line (i : nat) (status_icon : string) (label : pyval) : string :=
  dec_nat i +:+ ". " +:+ status_icon +:+ " " +:+ py_str label.

(** [for i, todo in enumerate(todos, 1): ...], with [lines] as the
    accumulator and [i] the running index. *)
Fixpoint format_loop (i : nat) (todos : list pydict) (lines : list string)
  : res (list string) :=
  match todos with
  | [] => Ok lines
  | todo :: rest =>
      status_icon ←! status_icon_get (dict_get todo "status" (PStr "pending"));
      let content := dict_get todo "content" (PStr "") in
      let active_form := dict_get todo "activeForm" (PStr "") in
      let status := dict_get todo "status" (PStr "pending") in
      if py_eq_str status "in_progress"
      then format_loop (S i) rest (lines ++ [todo_line i status_icon active_form])
      else format_loop (S i) rest (lines ++ [todo_line i status_icon content])
  end.

(** [sum(1 for t in todos if t.get("status") == s)] *)
Definition count_status (s : string) (todos : list pydict) : nat :=
  count_if (fun t => py_eq_str (dict_get t "status" PNone) s) todos.

(** [f"\nSummary: {pending} pending, {in_progress} in progress, {completed} completed"] *)
Definition summary_line (todos : list pydict) : string :=
  let pending := count_status "pending" todos in
  let in_progress := count_status "in_progress" todos in
  let completed := count_status "completed" todos in
  nl +:+ "Summary: " +:+ dec_nat pending +:+ " pending, "
     +:+ dec_nat in_progress +:+ " in progress, "
     +:+ dec_nat completed +:+ " completed".

(** The list [lines] of [_format_todos] just before the join (the list is
    not built when [todos] is empty). *)
Definition format_lines (todos : list pydict) : res (list string) :=
  lines ←! format_loop 1 todos ["Todo List:"];
  Ok (lines ++ [summary_line todos]).

(** [_format_todos(todos: list[dict])]. The elements are dicts, as the
    annotation says and as every caller provides. *)
Definition _format_todos (todos : list pydict) : res string :=
  match todos with
  | [] => Ok "Todo list is empty."
  | _ :: _ =>
      lines ←! format_lines todos;
      Ok (String.concat nl lines)
  end.

(** [write_todos]: the returned text (or the exception) and the store after
    the call. The assignment to [_session_todos] comes before the call of
    [_format_todos], so it stands whatever that call does. [cutoff_date] is
    a parameter the body never reads. *)
Definition write_todos (todos : list pyval) (cutoff_date : string) (ctx : Context)
    (σ : store) : res string * store :=
  let session_key := _get_session_key ctx in
  let validated_todos := validated todos in
  let σ' := <[session_key := validated_todos]> σ in
  (_format_todos validated_todos, σ').

(** ** Histories of calls *)

Inductive call :=
  | CallGet (session_key : string)
  | CallWrite (todos : list pyval) (cutoff_date : string) (ctx : Context).

Definition run_call (σ : store) (c : call) : store :=
  match c with
  | CallGet k => (_get_todos k σ).2
  | CallWrite todos cutoff_date ctx => (write_todos todos cutoff_date ctx σ).2
  end.

Definition run_calls (cs : list call) (σ : store) : store := foldl run_call σ cs.

End Formatter.

(** ** The specification's reading of the data *)

(** A Task of the data model: a description, a display label and a status. *)
Record Task := { task_content : pyval; task_activeForm : pyval; task_status : string }.

(** The stored form of a Task. *)
Definition task_dict (t : Task) : pydict :=
  todo_dict (task_content t) (task_activeForm t) (PStr (task_status t)).

(** A value is empty when Python's emptiness test [not v] holds of it: the
    empty text, and among the other values [None], [False], zero and the
    empty containers. *)
Definition is_empty (v : pyval) : bool := negb (truthy v).

(** The normalisation rules a stored Task obeys. *)
Definition normalized_task (t : Task) : Prop :=
  is_empty (task_content t) = false
  ∧ task_status t ∈ valid_statuses
  ∧ is_empty (task_activeForm t) = false.

Definition normalized_dict (d : pydict) : Prop :=
  ∃ t, d = task_dict t ∧ normalized_task t.

(** Steps 1 to 5 of the normalisation algorithm, for one raw entry. *)
Definition normalize_entry (raw : pyval) : option pydict :=
  match raw with
  | PDict d =>
      let content := default (PStr "") (d !! "content") in
      if is_empty content then None
      else
        let activeForm :=
          match d !! "activeForm" with
          | None => content
          | Some a => if is_empty a then content else a
          end in
        let status :=
          match d !! "status" with
          | Some (PStr s) =>
              if bool_decide (s ∈ valid_statuses) then PStr s else PStr "pending"
          | _ => PStr "pending"
          end in
        Some (todo_dict content activeForm status)
  | _ => None
  end.

(** The filter-map of the input, in input order. *)
Definition normalize (raw : list pyval) : list pydict := omap normalize_entry raw.

(** The invariant of the store: every stored dict is a normalised Task. *)
Definition store_normalized (σ : store) : Prop :=
  ∀ k todos, σ !! k = Some todos → Forall normalized_dict todos.

(** The call [c] assigns the list of the session [k]. *)
Definition writes_to (k : string) (c : call) : Prop :=
  match c with
  | CallGet _ => False
  | CallWrite _ _ ctx => _get_session_key ctx = k
  end.

(** ** The formatter, as the specification words it *)

Definition is_nl (c : ascii) : bool := Ascii.eqb c "010".

(** The lines of a text: [s.split("\n")]. *)
Fixpoint split_lines (s : string) : list string :=
  match s with
  | EmptyString => [EmptyString]
  | String c s' =>
      if is_nl c then EmptyString :: split_lines s'
      else
        match split_lines s' with
        | [] => [String c EmptyString]
        | l :: ls => String c l :: ls
        end
  end.

(** A text with no line feed in it. *)
Fixpoint no_nl (s : string) : bool :=
  match s with
  | EmptyString => true
  | String c s' => negb (is_nl c) && no_nl s'
  end.

(** The icon mapping, with its fallback. *)
Definition status_icon (s : string) : string :=
  if String.eqb s "pending" then "[ ]"
  else if String.eqb s "in_progress" then "[~]"
  else if String.eqb s "completed" then "[x]"
  else "[ ]".

(** The label: activeForm when in progress, content otherwise. *)
Definition task_label (t : Task) : pyval :=
  if String.eqb (task_status t) "in_progress" then task_activeForm t else task_content t.

(** The line of the task at 1-based position [i]. *)
Definition task_line (py_repr : pyval → string) (i : nat) (t : Task) : string :=
  dec_nat i +:+ ". " +:+ status_icon (task_status t) +:+ " "
    +:+ py_str py_repr (task_label t).

(** Counting by a scan of the list. *)
Definition count_tasks (s : string) (ts : list Task) : nat :=
  length (List.filter (fun t => String.eqb (task_status t) s) ts).

(** The count phrase ["{p} pending, {i} in progress, {c} completed"]. *)
Definition count_phrase (ts : list Task) : string :=
  dec_nat (count_tasks "pending" ts) +:+ " pending, "
    +:+ dec_nat (count_tasks "in_progress" ts) +:+ " in progress, "
    +:+ dec_nat (count_tasks "completed" ts) +:+ " completed".

(** ** Concrete inputs *)

(** The four tasks of the summary scenario. *)
Definition scenario_todos : list pyval :=
  [PDict {[ "content" := PStr "A"; "status" := PStr "pending" ]};
   PDict {[ "content" := PStr "B"; "status" := PStr "pending" ]};
   PDict {[ "content" := PStr "C"; "status" := PStr "in_progress" ]};
   PDict {[ "content" := PStr "D"; "status" := PStr "completed" ]}].

(** A context of the HTTP transport: a session identifier, no client
    identifier (the shape the tests build). *)
Definition http_ctx (sid : string) : Context :=
  {| session_id := Some sid; client_id := None |}.

(** A [repr] for the closed instances: none of them renders a [float], a
    [list] or a [dict]. *)
Definition repr_unused : pyval → string := λ _, "".

Definition raw_fix_bug : pyval :=
  PDict {[ "content" := PStr "Fix bug"; "activeForm" := PStr "Fixing bug";
           "status" := PStr "in_progress" ]}.

Definition raw_write_docs : pyval :=
  PDict {[ "content" := PStr "Write docs"; "status" := PStr "bogus" ]}.

Definition task_fix_bug : Task :=
  {| task_content := PStr "Fix bug"; task_activeForm := PStr "Fixing bug";
     task_status := "in_progress" |}.

Definition task_write_docs : Task :=
  {| task_content := PStr "Write docs"; task_activeForm := PStr "Write docs";
     task_status := "pending" |}.

(** ** Further readings of the code *)

(** The two [continue]s of the loop of [write_todos]: an entry that is not a
    dict, or whose content is empty. *)
Definition skipped (raw : pyval) : bool :=
  match raw with
  | PDict d => negb (truthy (dict_get d "content" (PStr "")))
  | _ => true
  end.

(** The value under "content" of a raw entry, when it is a dict that has one. *)
Definition raw_content (raw : pyval) : option pyval :=
  match raw with
  | PDict d => d !! "content"
  | _ => None
  end.

(** The keys of the dict literal of [write_todos]. *)
Definition todo_keys : gset string := {[ "content"; "activeForm"; "status" ]}.

(** A value that can key a dict: any but a [list] and a [dict]. *)
Definition hashable (v : pyval) : bool :=
  match v with
  | PList _ | PDict _ => false
  | _ => true
  end.

(** [todo.get("status", "pending")], the key of the icon lookup. *)
Definition shown_status (todo : pydict) : pyval := dict_get todo "status" (PStr "pending").

(** The icon the table gives a hashable key. *)
Definition shown_icon (key : pyval) : string :=
  match key with
  | PStr s => status_icon s
  | _ => "[ ]"
  end.

(** The line [_format_todos] appends for a dict at index [i]. *)
Definition dict_line (py_repr : pyval → string) (i : nat) (todo : pydict) : string :=
  todo_line py_repr i (shown_icon (shown_status todo))
    (if py_eq_str (shown_status todo) "in_progress"
     then dict_get todo "activeForm" (PStr "")
     else dict_get todo "content" (PStr "")).

(** The call [c] reads or writes the session [k]. *)
Definition touches (k : string) (c : call) : Prop :=
  match c with
  | CallGet k' => k' = k
  | CallWrite _ _ ctx => _get_session_key ctx = k
  end.

(** A context with no usable identifier: each attribute is [None] or empty. *)
Definition anonymous (ctx : Context) : Prop :=
  opt_or (session_id ctx) "" = "" ∧ opt_or (client_id ctx) "" = "".

(** A context of a transport without sessions: no session identifier, a
    client identifier. *)
Definition client_ctx (cid : string) : Context :=
  {| session_id := None; client_id := Some cid |}.

(** Two contexts without a usable identifier. *)
Definition bare_ctx : Context := {| session_id := None; client_id := None |}.
Definition blank_ctx : Context := {| session_id := Some ""; client_id := Some "" |}.

(** A dict with a content and nothing else. *)
Definition dict_content_only : pydict := {[ "content" := PStr "T" ]}.

(** ** The normalisation loop *)

Lemma validate_loop_acc todos acc :
  validate_loop todos acc = acc ++ omap validate_todo todos.
Proof.
  revert acc. induction todos as [|todo rest IH]; intros acc; csimpl.
  - by rewrite app_nil_r.
  - destruct (validate_todo todo) as [d|]; rewrite IH; [|done].
    by rewrite <- app_assoc.
Qed.

Lemma validated_omap todos : validated todos = omap validate_todo todos.
Proof. unfold validated. by rewrite validate_loop_acc. Qed.

Lemma py_in_strs_valid (v : pyval) :
  py_in_strs v valid_statuses = true ↔ ∃ s, v = PStr s ∧ s ∈ valid_statuses.
Proof.
  unfold py_in_strs, valid_statuses. rewrite existsb_exists. split.
  - intros (x & Hx & Heq). destruct v; simpl in Heq; try discriminate.
    apply String.eqb_eq in Heq. subst. eexists; split; [done|].
    by apply list_elem_of_In.
  - intros (s & -> & Hs). exists s. split; [by apply list_elem_of_In|].
    simpl. apply String.eqb_refl.
Qed.

Lemma forced_status (st : pyval) :
  (if negb (py_in_strs st valid_statuses) then PStr "pending" else st)
  = match st with
    | PStr s => if bool_decide (s ∈ valid_statuses) then PStr s else PStr "pending"
    | _ => PStr "pending"
    end.
Proof.
  destruct (py_in_strs st valid_statuses) eqn:Hin.
  - apply py_in_strs_valid in Hin as (s & -> & Hs). by rewrite bool_decide_true.
  - destruct st as [| | | |s| |]; try reflexivity.
    case_bool_decide as Hs; [|reflexivity].
    assert (py_in_strs (PStr s) valid_statuses = true) as Hin'
      by (apply py_in_strs_valid; eauto).
    congruence.
Qed.

Lemma validate_todo_normalize_entry raw : validate_todo raw = normalize_entry raw.
Proof.
  destruct raw as [| | | | |l|d]; try reflexivity.
  unfold validate_todo, normalize_entry, is_empty, dict_get, py_or.
  destruct (truthy (default (PStr "") (d !! "content"))) eqn:Hc; cbn [negb]; [|done].
  rewrite forced_status. f_equal. f_equal.
  - destruct (d !! "activeForm") as [a|]; simpl; [by destruct (truthy a)|done].
  - by destruct (d !! "status") as [st|].
Qed.

Lemma validated_normalize todos : validated todos = normalize todos.
Proof.
  rewrite validated_omap. unfold normalize.
  induction todos as [|raw rest IH]; csimpl; [done|].
  by rewrite validate_todo_normalize_entry, IH.
Qed.

Lemma todo_dict_content c a s : todo_dict c a s !! "content" = Some c.
Proof. unfold todo_dict. by simplify_map_eq. Qed.

Lemma todo_dict_activeForm c a s : todo_dict c a s !! "activeForm" = Some a.
Proof. unfold todo_dict. by simplify_map_eq. Qed.

Lemma todo_dict_status c a s : todo_dict c a s !! "status" = Some s.
Proof. unfold todo_dict. by simplify_map_eq. Qed.

Lemma validate_todo_normalized raw d :
  validate_todo raw = Some d → normalized_dict d.
Proof.
  destruct raw as [| | | | |l|d0]; try discriminate.
  unfold validate_todo, py_or.
  destruct (truthy (dict_get d0 "content" (PStr ""))) eqn:Hc; simpl; [|discriminate].
  intros [= <-].
  set (c := dict_get d0 "content" (PStr "")) in *.
  set (a := dict_get d0 "activeForm" (PStr "")).
  set (st := dict_get d0 "status" (PStr "pending")).
  assert (∃ s, (if negb (py_in_strs st valid_statuses) then PStr "pending" else st) = PStr s
               ∧ s ∈ valid_statuses) as (s & -> & Hs).
  { rewrite forced_status. destruct st as [| | | |s| |];
      try (exists "pending"; split; [done|]; unfold valid_statuses; set_solver).
    case_bool_decide; [by exists s|].
    exists "pending"; split; [done|]; unfold valid_statuses; set_solver. }
  exists {| task_content := c; task_activeForm := if truthy a then a else c;
            task_status := s |}.
  split; [done|]. unfold normalized_task, is_empty; simpl.
  rewrite Hc. split_and!; [done|done|].
  destruct (truthy a) eqn:Ha; by rewrite ?Ha, ?Hc.
Qed.

Lemma validated_all_normalized todos : Forall normalized_dict (validated todos).
Proof.
  rewrite validated_omap. induction todos as [|raw rest IH]; csimpl; [constructor|].
  destruct (validate_todo raw) as [d|] eqn:Hd; [|done].
  constructor; [by eapply validate_todo_normalized|done].
Qed.

Lemma validate_todo_fixed d : normalized_dict d → validate_todo (PDict d) = Some d.
Proof.
  intros ([c a s] & -> & Hc & Hs & Ha). unfold is_empty in *; simpl in *.
  apply negb_false_iff in Hc, Ha.
  unfold validate_todo, dict_get, task_dict; simpl.
  rewrite todo_dict_content, todo_dict_activeForm, todo_dict_status; simpl.
  rewrite Hc; simpl. unfold py_or. rewrite Ha.
  assert (py_in_strs (PStr s) valid_statuses = true) as ->
    by (apply py_in_strs_valid; eauto).
  done.
Qed.

Lemma validate_normalized_fixed (l : list pydict) :
  Forall normalized_dict l → omap validate_todo (PDict <$> l) = l.
Proof.
  induction 1 as [|d l Hd Hl IH]; csimpl; [done|].
  by rewrite (validate_todo_fixed d Hd), IH.
Qed.

Section StoreProperties.

Variable py_repr : pyval → string.

Lemma write_todos_store todos cutoff_date ctx (σ : store) :
  (write_todos py_repr todos cutoff_date ctx σ).2
  = <[_get_session_key ctx := validated todos]> σ.
Proof. reflexivity. Qed.

Lemma write_todos_result todos cutoff_date ctx (σ : store) :
  (write_todos py_repr todos cutoff_date ctx σ).1 = _format_todos py_repr (validated todos).
Proof. reflexivity. Qed.

Lemma _get_todos_result k (σ : store) : (_get_todos k σ).1 = default [] (σ !! k).
Proof. unfold _get_todos. by destruct (σ !! k). Qed.

Lemma _get_todos_store k (σ : store) :
  (_get_todos k σ).2 = <[k := default [] (σ !! k)]> σ.
Proof.
  unfold _get_todos. destruct (σ !! k) as [l|] eqn:Hk; simpl; [|done].
  by rewrite insert_id.
Qed.

(** C1: the list [write_todos] stores under the session key is the
    filter-map [normalize] of the raw input, in input order (entries that are
    not dicts and entries with empty content are skipped, an absent or empty
    activeForm becomes the content, a status outside the three recognised
    ones becomes "pending"), and the text it returns is the rendering of
    that same list. *)
Theorem write_todos_filter_map todos cutoff_date ctx (σ : store) :
  (write_todos py_repr todos cutoff_date ctx σ).2 !! _get_session_key ctx
  = Some (normalize todos)
  ∧ (write_todos py_repr todos cutoff_date ctx σ).1
    = _format_todos py_repr (normalize todos).
Proof.
  rewrite write_todos_store, write_todos_result, validated_normalize.
  split; [apply lookup_insert_eq|done].
Qed.

(** C2: full replace, not merge. After a write of [A] and then a write of
    [B] for the same session key [k], reading [k] gives exactly
    [normalize B]. *)
Theorem write_todos_full_replace k A B cutA cutB ctxA ctxB (σ : store) :
  _get_session_key ctxA = k →
  _get_session_key ctxB = k →
  (_get_todos k
     (write_todos py_repr B cutB ctxB (write_todos py_repr A cutA ctxA σ).2).2).1
  = normalize B.
Proof.
  intros HA HB. rewrite !write_todos_store, HA, HB, _get_todos_result.
  rewrite lookup_insert_eq. apply validated_normalize.
Qed.

(** C3: session isolation. A write under the key [k1] leaves the result of
    reading any other key [k2] unchanged. *)
Theorem write_todos_isolation k1 k2 A cutoff_date ctx (σ : store) :
  _get_session_key ctx = k1 →
  k1 ≠ k2 →
  (_get_todos k2 (write_todos py_repr A cutoff_date ctx σ).2).1 = (_get_todos k2 σ).1.
Proof.
  intros Hk Hne. rewrite write_todos_store, Hk, !_get_todos_result.
  by rewrite lookup_insert_ne.
Qed.

Lemma run_call_normalized (σ : store) c :
  store_normalized σ → store_normalized (run_call py_repr σ c).
Proof.
  intros Hσ k l. destruct c as [k'|todos cutoff_date ctx]; cbn [run_call].
  - rewrite _get_todos_store. destruct (decide (k' = k)) as [->|Hne].
    + rewrite lookup_insert_eq. intros [= <-].
      destruct (σ !! k) as [l'|] eqn:Hk; simpl; [by eapply Hσ|constructor].
    + rewrite lookup_insert_ne by done. apply Hσ.
  - rewrite write_todos_store. destruct (decide (_get_session_key ctx = k)) as [->|Hne].
    + rewrite lookup_insert_eq. intros [= <-]. apply validated_all_normalized.
    + rewrite lookup_insert_ne by done. apply Hσ.
Qed.

Lemma run_calls_normalized cs (σ : store) :
  store_normalized σ → store_normalized (run_calls py_repr cs σ).
Proof.
  revert σ. induction cs as [|c cs IH]; intros σ Hσ; simpl; [done|].
  apply IH. by apply run_call_normalized.
Qed.

(** C4: the store invariant. After any sequence of reads and writes from
    the empty store, every dict of every stored list is a normalised Task:
    non-empty content, a status among "pending", "in_progress" and
    "completed", non-empty activeForm. *)
Theorem store_invariant cs :
  store_normalized (run_calls py_repr cs _session_todos_init).
Proof.
  apply run_calls_normalized. intros k l Hk.
  unfold _session_todos_init in Hk. by rewrite lookup_empty in Hk.
Qed.

Lemma run_calls_unwritten k cs (σ : store) :
  default [] (σ !! k) = [] →
  Forall (λ c, ¬ writes_to k c) cs →
  default [] (run_calls py_repr cs σ !! k) = [].
Proof.
  revert σ. induction cs as [|c cs IH]; intros σ Hσ Hcs; simpl; [done|].
  inversion Hcs as [|? ? Hc Hcs']; subst. apply IH; [|done].
  destruct c as [k'|todos cutoff_date ctx]; cbn [run_call].
  - rewrite _get_todos_store. destruct (decide (k' = k)) as [->|Hne].
    + by rewrite lookup_insert_eq.
    + by rewrite lookup_insert_ne.
  - rewrite write_todos_store. simpl in Hc. by rewrite lookup_insert_ne.
Qed.

(** C6: reading a session that was never written. From a store in which the
    key [k] is unseen, and after any calls none of which writes [k], the
    read returns the empty list, leaves the empty list stored under [k], and
    the rendering of the result is the empty-list sentence. *)
Theorem get_todos_unwritten k cs (σ0 : store) :
  σ0 !! k = None →
  Forall (λ c, ¬ writes_to k c) cs →
  _get_todos k (run_calls py_repr cs σ0) = ([], <[k := []]> (run_calls py_repr cs σ0))
  ∧ _format_todos py_repr (_get_todos k (run_calls py_repr cs σ0)).1
    = Ok "Todo list is empty.".
Proof.
  intros Hk Hcs.
  pose proof (run_calls_unwritten k cs σ0) as Hun.
  rewrite Hk in Hun. specialize (Hun eq_refl Hcs).
  assert (_get_todos k (run_calls py_repr cs σ0)
          = ([], <[k := []]> (run_calls py_repr cs σ0))) as Hget.
  { rewrite (surjective_pairing (_get_todos _ _)).
    by rewrite _get_todos_result, _get_todos_store, Hun. }
  by rewrite Hget.
Qed.

(** C9: normalisation is idempotent. Feeding the loop its own output gives
    that output back. *)
Theorem validated_idempotent todos :
  validated (PDict <$> validated todos) = validated todos.
Proof.
  rewrite (validated_omap (PDict <$> _)).
  apply validate_normalized_fixed, validated_all_normalized.
Qed.

End StoreProperties.

(** ** Lines of a text *)

Lemma split_lines_cons s : ∃ l ls, split_lines s = l :: ls.
Proof.
  destruct s as [|c s']; simpl; [by eauto|].
  destruct (is_nl c); [by eauto|]. destruct (split_lines s'); by eauto.
Qed.

Lemma split_lines_no_nl s : no_nl s = true → split_lines s = [s].
Proof.
  induction s as [|c s' IH]; simpl; [done|].
  intros [Hc Hs]%andb_true_iff. apply negb_true_iff in Hc.
  by rewrite Hc, (IH Hs).
Qed.

Lemma split_lines_app_nl a b :
  split_lines (a +:+ nl +:+ b) = split_lines a ++ split_lines b.
Proof.
  induction a as [|c a' IH]; [done|].
  change (String c a' +:+ nl +:+ b) with (String c (a' +:+ nl +:+ b)).
  cbn [split_lines]. destruct (is_nl c); [by rewrite IH|].
  rewrite IH. by destruct (split_lines_cons a') as (l & ls & ->).
Qed.

Lemma split_lines_concat l ls :
  split_lines (String.concat nl (l :: ls)) = mjoin (split_lines <$> (l :: ls)).
Proof.
  revert l. induction ls as [|l' ls IH]; intros l.
  - simpl. by rewrite app_nil_r.
  - change (String.concat nl (l :: l' :: ls))
      with (l +:+ nl +:+ String.concat nl (l' :: ls)).
    by rewrite split_lines_app_nl, IH.
Qed.

Lemma no_nl_app a b : no_nl (a +:+ b) = no_nl a && no_nl b.
Proof.
  induction a as [|c a' IH]; simpl; [done|]. by rewrite IH, andb_assoc.
Qed.

Lemma no_nl_string_of_uint d : no_nl (NilEmpty.string_of_uint d) = true.
Proof. induction d; simpl; auto. Qed.

Lemma no_nl_dec_nat n : no_nl (dec_nat n) = true.
Proof. apply no_nl_string_of_uint. Qed.

Lemma no_nl_count_phrase ts : no_nl ("Summary: " +:+ count_phrase ts) = true.
Proof.
  unfold count_phrase. rewrite !no_nl_app, !no_nl_dec_nat. reflexivity.
Qed.

(** ** The formatter on lists of Tasks *)

Lemma status_icons_lookup s : default "[ ]" (status_icons !! s) = status_icon s.
Proof.
  unfold status_icons, status_icon.
  destruct (String.eqb_spec s "pending") as [->|Hp]; [done|].
  rewrite lookup_insert_ne by congruence.
  destruct (String.eqb_spec s "in_progress") as [->|Hi]; [done|].
  rewrite lookup_insert_ne by congruence.
  destruct (String.eqb_spec s "completed") as [->|Hc]; [done|].
  by rewrite lookup_singleton_ne by congruence.
Qed.

Lemma task_dict_get_content t dflt :
  dict_get (task_dict t) "content" dflt = task_content t.
Proof. unfold dict_get, task_dict. by rewrite todo_dict_content. Qed.

Lemma task_dict_get_activeForm t dflt :
  dict_get (task_dict t) "activeForm" dflt = task_activeForm t.
Proof. unfold dict_get, task_dict. by rewrite todo_dict_activeForm. Qed.

Lemma task_dict_get_status t dflt :
  dict_get (task_dict t) "status" dflt = PStr (task_status t).
Proof. unfold dict_get, task_dict. by rewrite todo_dict_status. Qed.

Lemma normalized_dicts_tasks (l : list pydict) :
  Forall normalized_dict l → ∃ ts, l = task_dict <$> ts ∧ Forall normalized_task ts.
Proof.
  induction 1 as [|d l (t & -> & Ht) _ (ts & -> & Hts)].
  - by exists [].
  - exists (t :: ts). split; [done|by constructor].
Qed.

Lemma count_status_tasks s ts : count_status s (task_dict <$> ts) = count_tasks s ts.
Proof.
  unfold count_status, count_if, count_tasks.
  induction ts as [|t ts IH]; [done|].
  rewrite fmap_cons. cbn [List.filter].
  rewrite task_dict_get_status. cbn [py_eq_str].
  destruct (String.eqb (task_status t) s); simpl; by rewrite IH.
Qed.

Lemma summary_line_tasks ts :
  summary_line (task_dict <$> ts) = nl +:+ "Summary: " +:+ count_phrase ts.
Proof. unfold summary_line, count_phrase. by rewrite !count_status_tasks. Qed.

Section FormatterProperties.

Variable py_repr : pyval → string.

Lemma format_loop_tasks i ts lines :
  format_loop py_repr i (task_dict <$> ts) lines
  = Ok (lines ++ imap (λ j t, task_line py_repr (i + j) t) ts).
Proof.
  revert i lines. induction ts as [|t ts IH]; intros i lines.
  - simpl. by rewrite app_nil_r.
  - rewrite fmap_cons, imap_cons. cbn [format_loop].
    rewrite !task_dict_get_status, task_dict_get_content, task_dict_get_activeForm.
    cbn [status_icon_get res_bind py_eq_str].
    rewrite status_icons_lookup.
    assert (∀ icon c a,
      (if String.eqb (task_status t) "in_progress"
       then format_loop py_repr (S i) (task_dict <$> ts) (lines ++ [todo_line py_repr i icon a])
       else format_loop py_repr (S i) (task_dict <$> ts) (lines ++ [todo_line py_repr i icon c]))
      = format_loop py_repr (S i) (task_dict <$> ts)
          (lines ++ [todo_line py_repr i icon
                       (if String.eqb (task_status t) "in_progress" then a else c)])) as ->
      by (intros; by destruct (String.eqb _ _)).
    rewrite IH, <- app_assoc. f_equal. f_equal. cbn [app]. f_equal.
    + unfold task_line, task_label, todo_line. by rewrite Nat.add_0_r.
    + apply imap_ext. intros j t' _. simpl. f_equal. lia.
Qed.

Lemma format_lines_tasks ts :
  format_lines py_repr (task_dict <$> ts)
  = Ok ("Todo List:" :: imap (λ j t, task_line py_repr (S j) t) ts
          ++ [nl +:+ "Summary: " +:+ count_phrase ts]).
Proof.
  unfold format_lines. rewrite format_loop_tasks. cbn [res_bind].
  by rewrite summary_line_tasks.
Qed.

Lemma _format_todos_tasks t ts :
  _format_todos py_repr (task_dict <$> t :: ts)
  = Ok (String.concat nl
          ("Todo List:" :: imap (λ j t, task_line py_repr (S j) t) (t :: ts)
             ++ [nl +:+ "Summary: " +:+ count_phrase (t :: ts)])).
Proof.
  unfold _format_todos. rewrite fmap_cons, <- (fmap_cons task_dict).
  by rewrite format_lines_tasks.
Qed.

(** C5: [write_todos] never raises. Whatever the raw list holds (entries
    that are not dicts, missing or non-text fields, unknown statuses), the
    call returns a text. *)
Theorem write_todos_total todos cutoff_date ctx (σ : store) :
  ∃ out, (write_todos py_repr todos cutoff_date ctx σ).1 = Ok out.
Proof.
  rewrite write_todos_result.
  destruct (normalized_dicts_tasks _ (validated_all_normalized todos)) as (ts & -> & _).
  destruct ts as [|t ts]; [by eexists|].
  rewrite _format_todos_tasks. by eexists.
Qed.

(** C7: the line of each task. For a non-empty list of Tasks, the list of
    lines that [_format_todos] joins holds, at the 1-based position [i] of a
    task, the text "{i}. {icon} {label}": the icon is "[ ]" for pending,
    "[~]" for in_progress, "[x]" for completed and "[ ]" for any other
    status; the label is activeForm when the status is in_progress and
    content otherwise. *)
Theorem format_todos_task_line ts i t :
  ts !! i = Some t →
  ∃ lines,
    format_lines py_repr (task_dict <$> ts) = Ok lines
    ∧ _format_todos py_repr (task_dict <$> ts) = Ok (String.concat nl lines)
    ∧ lines !! S i
      = Some (dec_nat (S i) +:+ ". " +:+ status_icon (task_status t) +:+ " "
                +:+ py_str py_repr (task_label t)).
Proof.
  intros Hi. eexists. split; [apply format_lines_tasks|]. split.
  - destruct ts as [|t0 ts]; [done|]. apply _format_todos_tasks.
  - rewrite lookup_cons, lookup_app_l.
    + by rewrite list_lookup_imap, Hi.
    + rewrite length_imap. by eapply lookup_lt_Some.
Qed.

(** C10: the frame around the task lines. For a non-empty list of Tasks the
    first line of the returned text is "Todo List:", and its last line is
    the count phrase prefixed with "Summary: ", preceded by an empty line. *)
Theorem format_todos_frame ts :
  ts ≠ [] →
  ∃ out mid,
    _format_todos py_repr (task_dict <$> ts) = Ok out
    ∧ split_lines out
      = "Todo List:" :: mid ++ [""; "Summary: " +:+ count_phrase ts].
Proof.
  intros Hne. destruct ts as [|t ts]; [done|].
  eexists. exists (mjoin (split_lines <$> imap (λ j t, task_line py_repr (S j) t) (t :: ts))).
  split; [apply _format_todos_tasks|].
  rewrite split_lines_concat. rewrite fmap_cons, fmap_app.
  cbn [mjoin list_join]. rewrite join_app. f_equal.
  cbn [fmap list_fmap mjoin list_join]. rewrite app_nil_r.
  change (nl +:+ "Summary: " +:+ count_phrase (t :: ts))
    with ("" +:+ nl +:+ ("Summary: " +:+ count_phrase (t :: ts))).
  rewrite split_lines_app_nl.
  by rewrite (split_lines_no_nl _ (no_nl_count_phrase _)).
Qed.

(** C8 (as amended): in the scenario of two pending, one in-progress and one
    completed task, the last line of the returned text is exactly
    "Summary: 2 pending, 1 in progress, 1 completed", and the three counts
    are those of a scan of the normalised list. *)
Theorem scenario_summary cutoff_date ctx (σ : store) :
  ∃ out,
    (write_todos py_repr scenario_todos cutoff_date ctx σ).1 = Ok out
    ∧ last (split_lines out) = Some "Summary: 2 pending, 1 in progress, 1 completed"
    ∧ count_status "pending" (validated scenario_todos) = 2
    ∧ count_status "in_progress" (validated scenario_todos) = 1
    ∧ count_status "completed" (validated scenario_todos) = 1.
Proof.
  rewrite write_todos_result. eexists. split; [vm_compute; reflexivity|].
  split; [vm_compute; reflexivity|]. by vm_compute.
Qed.

End FormatterProperties.

(** C8 (as stated) fails: whatever the interpreter's [repr], the date, the
    context and the store, the last line of the text returned in the
    scenario is not the bare count phrase. *)
Lemma scenario_summary_not_bare :
  ¬ ∃ py_repr cutoff_date ctx (σ : store) out,
      (write_todos py_repr scenario_todos cutoff_date ctx σ).1 = Ok out
      ∧ last (split_lines out) = Some "2 pending, 1 in progress, 1 completed".
Proof.
  intros (py_repr & cutoff_date & ctx & σ & out & Hout & Hlast).
  rewrite write_todos_result in Hout. vm_compute in Hout.
  injection Hout as <-. vm_compute in Hlast. discriminate Hlast.
Qed.

(** ** Closed instances *)

(** C2 at two writes of the session "s1". *)
Lemma write_todos_full_replace_witness :
  _get_session_key (http_ctx "s1") = "s1"
  ∧ (_get_todos "s1"
       (write_todos repr_unused [raw_write_docs] "2026-01-02" (http_ctx "s1")
          (write_todos repr_unused [raw_fix_bug; PNone] "2026-01-01" (http_ctx "s1")
             _session_todos_init).2).2).1
    = normalize [raw_write_docs].
Proof.
  split; [reflexivity|].
  apply (write_todos_full_replace repr_unused "s1"); reflexivity.
Defined.

(** C3 at a write of "s1" observed from "s2". *)
Lemma write_todos_isolation_witness :
  "s1" ≠ "s2"
  ∧ (_get_todos "s2"
       (write_todos repr_unused [raw_fix_bug] "2026-01-01" (http_ctx "s1")
          (<["s2" := validated [raw_write_docs]]> _session_todos_init)).2).1
    = (_get_todos "s2" (<["s2" := validated [raw_write_docs]]> _session_todos_init)).1.
Proof.
  split; [discriminate|].
  apply (write_todos_isolation repr_unused "s1" "s2"); [reflexivity|discriminate].
Defined.

(** C4 at a history of one read and two writes, read at the session "s1". *)
Lemma store_invariant_witness :
  Forall normalized_dict (validated [raw_fix_bug; PInt 3; raw_write_docs]).
Proof.
  apply (store_invariant repr_unused
           [CallGet "s1";
            CallWrite [raw_write_docs] "2026-01-01" (http_ctx "s2");
            CallWrite [raw_fix_bug; PInt 3; raw_write_docs] "2026-01-02" (http_ctx "s1")]
           "s1").
  vm_compute. reflexivity.
Defined.

(** C6 at the session "s2", read after a read of it and a write of "s1". *)
Lemma get_todos_unwritten_witness :
  _get_todos "s2"
    (run_calls repr_unused
       [CallGet "s2"; CallWrite [raw_fix_bug] "2026-01-01" (http_ctx "s1")]
       _session_todos_init)
  = ([], <["s2" := []]>
           (run_calls repr_unused
              [CallGet "s2"; CallWrite [raw_fix_bug] "2026-01-01" (http_ctx "s1")]
              _session_todos_init))
  ∧ _format_todos repr_unused
      (_get_todos "s2"
         (run_calls repr_unused
            [CallGet "s2"; CallWrite [raw_fix_bug] "2026-01-01" (http_ctx "s1")]
            _session_todos_init)).1
    = Ok "Todo list is empty.".
Proof.
  apply (get_todos_unwritten repr_unused "s2").
  - reflexivity.
  - repeat constructor; simpl; [tauto|discriminate].
Defined.

(** C7 at the second of two tasks, the one in progress. *)
Lemma format_todos_task_line_witness :
  ∃ lines,
    format_lines repr_unused (task_dict <$> [task_write_docs; task_fix_bug]) = Ok lines
    ∧ _format_todos repr_unused (task_dict <$> [task_write_docs; task_fix_bug])
      = Ok (String.concat nl lines)
    ∧ lines !! 2 = Some "2. [~] Fixing bug".
Proof.
  apply (format_todos_task_line repr_unused [task_write_docs; task_fix_bug] 1 task_fix_bug).
  reflexivity.
Defined.

(** C10 at a list of one task. *)
Lemma format_todos_frame_witness :
  ∃ out mid,
    _format_todos repr_unused (task_dict <$> [task_fix_bug]) = Ok out
    ∧ split_lines out
      = "Todo List:" :: mid ++ [""; "Summary: 0 pending, 1 in progress, 0 completed"].
Proof.
  apply (format_todos_frame repr_unused [task_fix_bug]). discriminate.
Defined.

(** ** The specification's examples, run on the model *)

(** Drop-empty-content: the entry with empty content is skipped, "Valid" stays. *)
Example validated_drop_empty_content :
  validated
    [PDict {[ "content" := PStr ""; "activeForm" := PStr "x"; "status" := PStr "pending" ]};
     PDict {[ "content" := PStr "Valid"; "activeForm" := PStr "Valid";
              "status" := PStr "pending" ]}]
  = [todo_dict (PStr "Valid") (PStr "Valid") (PStr "pending")].
Proof. vm_compute. reflexivity. Qed.

(** Status coercion and activeForm default. *)
Example validated_coerces_and_defaults :
  validated [PDict {[ "content" := PStr "T"; "status" := PStr "bogus" ]};
             PDict {[ "content" := PStr "T"; "status" := PStr "in_progress" ]}]
  = [todo_dict (PStr "T") (PStr "T") (PStr "pending");
     todo_dict (PStr "T") (PStr "T") (PStr "in_progress")].
Proof. vm_compute. reflexivity. Qed.

(** Entries that are not dicts, and falsy content that is not text, are
    skipped; a truthy content that is not text is kept as it is. *)
Example validated_non_text :
  validated [PInt 3; PStr "todo"; PList [];
             PDict {[ "content" := PInt 0 ]};
             PDict {[ "content" := PNone; "status" := PStr "completed" ]};
             PDict {[ "content" := PInt 5; "activeForm" := PNone; "status" := PList [] ]}]
  = [todo_dict (PInt 5) (PInt 5) (PStr "pending")].
Proof. vm_compute. reflexivity. Qed.

(** The whole text of the summary scenario. *)
Example scenario_text py_repr cutoff_date ctx (σ : store) :
  (write_todos py_repr scenario_todos cutoff_date ctx σ).1
  = Ok ("Todo List:" +:+ nl +:+ "1. [ ] A" +:+ nl +:+ "2. [ ] B" +:+ nl
          +:+ "3. [~] C" +:+ nl +:+ "4. [x] D" +:+ nl +:+ nl
          +:+ "Summary: 2 pending, 1 in progress, 1 completed").
Proof. rewrite write_todos_result. vm_compute. reflexivity. Qed.

(** A status that cannot be hashed makes the icon lookup raise; no stored
    list holds one. *)
Example format_unhashable_status py_repr :
  _format_todos py_repr [ {[ "content" := PStr "T"; "status" := PList [] ]} ]
  = Raise TypeError.
Proof. vm_compute. reflexivity. Qed.

(** An empty write clears the session: the text is the empty-list sentence. *)
Example write_empty py_repr cutoff_date ctx (σ : store) :
  write_todos py_repr [] cutoff_date ctx σ
  = (Ok "Todo list is empty.", <[_get_session_key ctx := []]> σ).
Proof. reflexivity. Qed.

(** * Further properties of the code *)

(** ** The session key *)

Lemma opt_or_nonempty a b : b ≠ "" → opt_or a b ≠ "".
Proof.
  intros Hb. destruct a as [s|]; simpl; [|done].
  by destruct (String.eqb_spec s "").
Qed.

Lemma opt_or_unusable a b : opt_or a "" = "" → opt_or a b = b.
Proof.
  destruct a as [s|]; simpl; [|done].
  destruct (String.eqb_spec s ""); [done|]. by intros ->.
Qed.

Lemma _get_session_key_session ctx s :
  session_id ctx = Some s → s ≠ "" → _get_session_key ctx = s.
Proof.
  intros Hs Hne. unfold _get_session_key. rewrite Hs. simpl.
  by destruct (String.eqb_spec s "").
Qed.

Lemma _get_session_key_client ctx c :
  opt_or (session_id ctx) "" = "" → client_id ctx = Some c → c ≠ "" →
  _get_session_key ctx = c.
Proof.
  intros Hs Hc Hne. unfold _get_session_key.
  rewrite (opt_or_unusable _ _ Hs), Hc. simpl.
  by destruct (String.eqb_spec c "").
Qed.

Lemma _get_session_key_anonymous ctx : anonymous ctx → _get_session_key ctx = "default".
Proof.
  intros [Hs Hc]. unfold _get_session_key.
  by rewrite (opt_or_unusable _ _ Hs), (opt_or_unusable _ _ Hc).
Qed.

(** X1: the session key is never the empty text, whatever the context holds
    (absent or empty identifiers included). *)
Theorem session_key_nonempty ctx : _get_session_key ctx ≠ "".
Proof. unfold _get_session_key. apply opt_or_nonempty, opt_or_nonempty. done. Qed.

Section SessionProperties.

Variable py_repr : pyval → string.

(** X2: two contexts with different non-empty session identifiers own
    independent lists: a write through the first leaves what is read
    under the key of the second unchanged, whatever their client
    identifiers are. *)
Theorem sessions_independent ctx1 ctx2 s1 s2 todos cutoff_date (σ : store) :
  session_id ctx1 = Some s1 → s1 ≠ "" →
  session_id ctx2 = Some s2 → s2 ≠ "" →
  s1 ≠ s2 →
  (_get_todos (_get_session_key ctx2)
     (write_todos py_repr todos cutoff_date ctx1 σ).2).1
  = (_get_todos (_get_session_key ctx2) σ).1.
Proof.
  intros H1 Hn1 H2 Hn2 Hne.
  rewrite write_todos_store, !_get_todos_result.
  rewrite (_get_session_key_session _ _ H1 Hn1), (_get_session_key_session _ _ H2 Hn2).
  by rewrite lookup_insert_ne.
Qed.

(** X3: session and client identifiers share one key space. A context
    without a usable session identifier and with the client identifier [c]
    writes the very list that a context with the session identifier [c]
    reads. *)
Theorem client_id_shares_key ctxA ctxB c todos cutoff_date (σ : store) :
  opt_or (session_id ctxA) "" = "" → client_id ctxA = Some c → c ≠ "" →
  session_id ctxB = Some c →
  (_get_todos (_get_session_key ctxB)
     (write_todos py_repr todos cutoff_date ctxA σ).2).1
  = validated todos.
Proof.
  intros HsA HcA Hne HsB.
  rewrite write_todos_store, _get_todos_result.
  rewrite (_get_session_key_client _ _ HsA HcA Hne), (_get_session_key_session _ _ HsB Hne).
  by rewrite lookup_insert_eq.
Qed.

(** X4: all contexts without a usable identifier share the one list kept
    under "default": what one of them writes, any other reads. *)
Theorem anonymous_contexts_share ctxA ctxB todos cutoff_date (σ : store) :
  anonymous ctxA → anonymous ctxB →
  _get_session_key ctxA = "default"
  ∧ (_get_todos (_get_session_key ctxB)
       (write_todos py_repr todos cutoff_date ctxA σ).2).1
    = validated todos.
Proof.
  intros HA HB. split; [by apply _get_session_key_anonymous|].
  rewrite write_todos_store, _get_todos_result.
  rewrite (_get_session_key_anonymous ctxA HA), (_get_session_key_anonymous ctxB HB).
  by rewrite lookup_insert_eq.
Qed.

(** ** Reads and writes on the store *)

(** X5: a read changes no result of a later read, although it may create an
    entry: after [_get_todos k], every key reads as before. *)
Theorem read_is_unobservable k k' (σ : store) :
  (_get_todos k' (_get_todos k σ).2).1 = (_get_todos k' σ).1.
Proof.
  rewrite !_get_todos_result, _get_todos_store.
  destruct (decide (k = k')) as [->|Hne].
  - rewrite lookup_insert_eq. by destruct (σ !! k').
  - by rewrite lookup_insert_ne.
Qed.

(** X6: reading a key twice is reading it once: the second read returns
    the same list and leaves the store of the first. *)
Theorem read_twice k (σ : store) :
  _get_todos k (_get_todos k σ).2 = _get_todos k σ.
Proof.
  unfold _get_todos at 2 3. destruct (σ !! k) as [l|] eqn:Hk; simpl.
  - unfold _get_todos. by rewrite Hk.
  - unfold _get_todos. by rewrite lookup_insert_eq.
Qed.

(** X7: last writer wins on the whole store. Two writes under the same key
    leave the store that the second write alone leaves. *)
Theorem write_overwrites ctxA ctxB A B cutA cutB (σ : store) :
  _get_session_key ctxA = _get_session_key ctxB →
  (write_todos py_repr B cutB ctxB (write_todos py_repr A cutA ctxA σ).2).2
  = (write_todos py_repr B cutB ctxB σ).2.
Proof.
  intros Hk. rewrite !write_todos_store, Hk. apply insert_insert_eq.
Qed.

(** X8: writes under different keys commute: either order leaves the same
    store. *)
Theorem writes_commute ctxA ctxB A B cutA cutB (σ : store) :
  _get_session_key ctxA ≠ _get_session_key ctxB →
  (write_todos py_repr B cutB ctxB (write_todos py_repr A cutA ctxA σ).2).2
  = (write_todos py_repr A cutA ctxA (write_todos py_repr B cutB ctxB σ).2).2.
Proof.
  intros Hk. rewrite !write_todos_store. by apply insert_insert_ne.
Qed.

Lemma run_call_lookup_mono (σ : store) c k :
  is_Some (σ !! k) → is_Some (run_call py_repr σ c !! k).
Proof.
  intros Hk. destruct c as [k'|todos cutoff_date ctx]; cbn [run_call].
  - rewrite _get_todos_store. rewrite lookup_insert_is_Some.
    destruct (decide (k' = k)); auto.
  - rewrite write_todos_store. rewrite lookup_insert_is_Some.
    destruct (decide (_get_session_key ctx = k)); auto.
Qed.

Lemma run_calls_lookup_mono cs (σ : store) k :
  is_Some (σ !! k) → is_Some (run_calls py_repr cs σ !! k).
Proof.
  revert σ. induction cs as [|c cs IH]; intros σ Hk; simpl; [done|].
  by apply IH, run_call_lookup_mono.
Qed.

Lemma run_call_touched (σ : store) c k :
  touches k c → is_Some (run_call py_repr σ c !! k).
Proof.
  destruct c as [k'|todos cutoff_date ctx]; cbn [run_call touches]; intros <-.
  - rewrite _get_todos_store, lookup_insert_eq. by eexists.
  - rewrite write_todos_store, lookup_insert_eq. by eexists.
Qed.

(** X9: no call deletes a session. A key present in the store is present
    after any sequence of reads and writes. *)
Theorem keys_never_deleted cs (σ : store) k :
  k ∈ dom σ → k ∈ dom (run_calls py_repr cs σ).
Proof. rewrite !elem_of_dom. apply run_calls_lookup_mono. Qed.

(** X10: lazy creation sticks. Every key that some call of a history read
    or wrote is present in the store at the end of the history. *)
Theorem touched_keys_present cs c k (σ : store) :
  c ∈ cs → touches k c → k ∈ dom (run_calls py_repr cs σ).
Proof.
  intros Hc Hk. rewrite elem_of_dom. revert σ.
  induction cs as [|c' cs IH]; intros σ; [by apply elem_of_nil in Hc|].
  simpl. apply elem_of_cons in Hc as [->|Hc].
  - by apply run_calls_lookup_mono, run_call_touched.
  - by apply IH.
Qed.

Lemma run_calls_kept k l cs (σ : store) :
  σ !! k = Some l →
  Forall (λ c, ¬ writes_to k c) cs →
  run_calls py_repr cs σ !! k = Some l.
Proof.
  revert σ. induction cs as [|c cs IH]; intros σ Hσ Hcs; simpl; [done|].
  inversion Hcs as [|? ? Hc Hcs']; subst. apply IH; [|done].
  destruct c as [k'|todos cutoff_date ctx]; cbn [run_call].
  - rewrite _get_todos_store. destruct (decide (k' = k)) as [->|Hne].
    + by rewrite lookup_insert_eq, Hσ.
    + by rewrite lookup_insert_ne.
  - rewrite write_todos_store. simpl in Hc. by rewrite lookup_insert_ne.
Qed.

Lemma run_calls_app cs1 cs2 (σ : store) :
  run_calls py_repr (cs1 ++ cs2) σ = run_calls py_repr cs2 (run_calls py_repr cs1 σ).
Proof. unfold run_calls. apply foldl_app. Qed.

(** X11: in any history the list of a session is the one of its last write:
    after a write of [todos] under [k], followed by calls none of which
    writes [k] (reads of [k] and calls on other sessions), the store holds
    the normalised [todos] under [k], whatever came before. *)
Theorem last_write_stands cs1 cs2 todos cutoff_date ctx (σ : store) :
  Forall (λ c, ¬ writes_to (_get_session_key ctx) c) cs2 →
  run_calls py_repr (cs1 ++ CallWrite todos cutoff_date ctx :: cs2) σ
    !! _get_session_key ctx
  = Some (validated todos).
Proof.
  intros Hcs2. rewrite run_calls_app. cbn [run_calls foldl].
  apply run_calls_kept; [|done].
  cbn [run_call]. by rewrite write_todos_store, lookup_insert_eq.
Qed.

(** X12: writing back what was read changes nothing. In a store reached
    from the empty one, a write under [k] of the list stored under [k]
    leaves the store as it is. *)
Theorem write_back_read cs k l cutoff_date ctx :
  run_calls py_repr cs _session_todos_init !! k = Some l →
  _get_session_key ctx = k →
  (write_todos py_repr (PDict <$> l) cutoff_date ctx
     (run_calls py_repr cs _session_todos_init)).2
  = run_calls py_repr cs _session_todos_init.
Proof.
  intros Hl Hk. rewrite write_todos_store, Hk.
  assert (Forall normalized_dict l) as Hnorm.
  { eapply (run_calls_normalized py_repr cs _session_todos_init); [|done].
    intros k' l' Hk'. unfold _session_todos_init in Hk'. by rewrite lookup_empty in Hk'. }
  rewrite validated_omap, (validate_normalized_fixed l Hnorm).
  by apply insert_id.
Qed.

End SessionProperties.

(** ** What the loop keeps and what it skips *)

Lemma validate_todo_skipped raw : validate_todo raw = None ↔ skipped raw = true.
Proof.
  destruct raw as [| | | | |l|d]; try done.
  unfold validate_todo, skipped.
  by destruct (truthy (dict_get d "content" (PStr ""))).
Qed.

Lemma validate_todo_content raw d :
  validate_todo raw = Some d →
  ∃ c, raw_content raw = Some c ∧ truthy c = true ∧ d !! "content" = Some c.
Proof.
  destruct raw as [| | | | |l|d0]; try discriminate.
  unfold validate_todo, dict_get, raw_content.
  destruct (d0 !! "content") as [c|]; simpl.
  - destruct (truthy c) eqn:Hc; simpl; [|discriminate].
    intros [= <-]. exists c. by rewrite todo_dict_content.
  - discriminate.
Qed.

Lemma todo_dict_dom c a s : dom (todo_dict c a s) = todo_keys.
Proof.
  unfold todo_dict, todo_keys. rewrite !dom_insert_L, dom_singleton_L. set_solver.
Qed.

(** X13: the loop treats each entry on its own: normalising a concatenation
    is concatenating the normalisations, so an entry that is skipped or kept
    is so whatever stands beside it. *)
Theorem validated_app todos1 todos2 :
  validated (todos1 ++ todos2) = validated todos1 ++ validated todos2.
Proof. rewrite !validated_omap. apply omap_app. Qed.

(** X14: every raw entry is either kept or skipped: the length of the
    stored list plus the number of skipped entries (not a dict, or empty
    content) is the length of the input. *)
Theorem validated_length todos :
  length (validated todos) + count_if skipped todos = length todos.
Proof.
  rewrite validated_omap. unfold count_if.
  induction todos as [|raw rest IH]; csimpl; [done|].
  destruct (validate_todo raw) as [d|] eqn:Hd.
  - destruct (skipped raw) eqn:Hs.
    + apply validate_todo_skipped in Hs. congruence.
    + simpl. lia.
  - apply validate_todo_skipped in Hd. rewrite Hd. simpl. lia.
Qed.

(** X16: contents are stored as they come. The contents of the stored list
    are exactly the non-empty contents of the dicts of the input, in input
    order and unchanged (no conversion to text, no trimming). *)
Theorem validated_contents todos :
  omap (λ d : pydict, d !! "content") (validated todos)
  = List.filter truthy (omap raw_content todos).
Proof.
  rewrite validated_omap.
  induction todos as [|raw rest IH]; csimpl; [done|].
  destruct (validate_todo raw) as [d|] eqn:Hd.
  - destruct (validate_todo_content _ _ Hd) as (c & Hraw & Hc & Hdc).
    csimpl. rewrite Hdc, Hraw. simpl. rewrite Hc. by rewrite IH.
  - apply validate_todo_skipped in Hd.
    destruct raw as [| | | | |l|d0]; simpl; try done.
    unfold skipped, dict_get in Hd.
    destruct (d0 !! "content") as [c|]; simpl in *; [|done].
    apply negb_true_iff in Hd. by rewrite Hd.
Qed.

Section NormalisationProperties.

Variable py_repr : pyval → string.

Lemma _format_todos_nonempty_text d l :
  Forall normalized_dict (d :: l) →
  _format_todos py_repr (d :: l) ≠ Ok "Todo list is empty.".
Proof.
  intros Hn. destruct (normalized_dicts_tasks _ Hn) as (ts & Hts & _).
  destruct ts as [|t ts]; [discriminate|]. rewrite Hts, _format_todos_tasks.
  rewrite imap_cons. cbn [app].
  change (String.concat nl (?a :: ?b :: ?r)) with (a +:+ nl +:+ String.concat nl (b :: r)).
  simpl. discriminate.
Qed.

(** X15: the empty-list sentence is returned exactly when nothing is kept:
    the text of [write_todos] is "Todo list is empty." if and only if every
    entry of the input is skipped (the empty input included). *)
Theorem write_todos_empty_text todos cutoff_date ctx (σ : store) :
  (write_todos py_repr todos cutoff_date ctx σ).1 = Ok "Todo list is empty."
  ↔ Forall (λ raw, skipped raw = true) todos.
Proof.
  rewrite write_todos_result. split.
  - intros Hout. pose proof (validated_all_normalized todos) as Hn.
    destruct (validated todos) as [|d l] eqn:Hv.
    + rewrite validated_omap in Hv. clear Hout Hn.
      induction todos as [|raw rest IH]; [constructor|].
      csimpl in Hv. destruct (validate_todo raw) as [d|] eqn:Hd; [discriminate|].
      constructor; [by apply validate_todo_skipped|by apply IH].
    + by apply _format_todos_nonempty_text in Hout.
  - intros Hall. assert (validated todos = []) as ->; [|done].
    rewrite validated_omap. induction Hall as [|raw rest Hs _ IH]; csimpl; [done|].
    apply validate_todo_skipped in Hs. by rewrite Hs.
Qed.

(** X17: a stored dict has the three keys "content", "activeForm" and
    "status" and no other: whatever else a raw entry carries is dropped. *)
Theorem stored_dict_keys cs k l d :
  run_calls py_repr cs _session_todos_init !! k = Some l →
  d ∈ l →
  dom d = todo_keys.
Proof.
  intros Hl Hd.
  assert (Forall normalized_dict l) as Hnorm.
  { eapply (run_calls_normalized py_repr cs _session_todos_init); [|done].
    intros k' l' Hk'. unfold _session_todos_init in Hk'. by rewrite lookup_empty in Hk'. }
  rewrite Forall_forall in Hnorm. destruct (Hnorm d Hd) as (t & -> & _).
  apply todo_dict_dom.
Qed.

End NormalisationProperties.

(** ** The formatter on arbitrary dicts *)

Lemma status_icon_get_hashable key :
  hashable key = true → status_icon_get key = Ok (shown_icon key).
Proof.
  destruct key; try done. intros _. simpl. by rewrite status_icons_lookup.
Qed.

Lemma status_icon_get_unhashable key :
  hashable key = false → status_icon_get key = Raise TypeError.
Proof. by destruct key. Qed.

Lemma hashable_split (todos : list pydict) :
  Forall (λ t, hashable (shown_status t) = true) todos
  ∨ Exists (λ t, hashable (shown_status t) = false) todos.
Proof.
  induction todos as [|t rest [IH|IH]].
  - left. constructor.
  - destruct (hashable (shown_status t)) eqn:Ht.
    + left. by constructor.
    + right. by constructor.
  - right. by constructor.
Qed.

Lemma count_three (v : pyval) :
  Nat.b2n (py_eq_str v "pending") + Nat.b2n (py_eq_str v "in_progress")
    + Nat.b2n (py_eq_str v "completed") ≤ 1.
Proof.
  destruct v as [| | | |s| |]; simpl; try lia.
  destruct (String.eqb_spec s "pending") as [->|]; [simpl; lia|].
  destruct (String.eqb_spec s "in_progress") as [->|]; [simpl; lia|].
  destruct (String.eqb s "completed"); simpl; lia.
Qed.

Lemma count_if_cons {A} (p : A → bool) x l :
  count_if p (x :: l) = Nat.b2n (p x) + count_if p l.
Proof. unfold count_if. simpl. by destruct (p x). Qed.

Lemma count_tasks_cons s t ts :
  count_tasks s (t :: ts) = Nat.b2n (String.eqb (task_status t) s) + count_tasks s ts.
Proof. unfold count_tasks. simpl. by destruct (String.eqb _ _). Qed.

Lemma count_tasks_normalized ts :
  Forall normalized_task ts →
  count_tasks "pending" ts + count_tasks "in_progress" ts + count_tasks "completed" ts
  = length ts.
Proof.
  induction 1 as [|t ts (_ & Hs & _) _ IH]; [done|].
  rewrite !count_tasks_cons. cbn [length]. rewrite <- IH.
  unfold valid_statuses in Hs.
  apply elem_of_cons in Hs as [->|Hs]; [simpl; lia|].
  apply elem_of_cons in Hs as [->|Hs]; [simpl; lia|].
  apply list_elem_of_singleton in Hs as ->. simpl; lia.
Qed.

(** X20: the three counts of the summary partition a stored list: for the
    list [write_todos] stores, pending + in progress + completed is its
    length, one count per numbered line. *)
Theorem stored_counts_total todos :
  count_status "pending" (validated todos)
    + count_status "in_progress" (validated todos)
    + count_status "completed" (validated todos)
  = length (validated todos).
Proof.
  destruct (normalized_dicts_tasks _ (validated_all_normalized todos)) as (ts & -> & Hts).
  rewrite !count_status_tasks, length_fmap. by apply count_tasks_normalized.
Qed.

(** X21: on any list of dicts the three counts never exceed the number of
    dicts: a dict is counted at most once, and a dict with no status or with
    an unrecognised one is counted nowhere. *)
Theorem counts_bounded (todos : list pydict) :
  count_status "pending" todos + count_status "in_progress" todos
    + count_status "completed" todos
  ≤ length todos.
Proof.
  unfold count_status. induction todos as [|t rest IH]; [done|].
  rewrite !count_if_cons. cbn [length].
  pose proof (count_three (dict_get t "status" PNone)). lia.
Qed.

Section DictFormatter.

Variable py_repr : pyval → string.

Lemma format_loop_dicts i todos lines :
  Forall (λ t, hashable (shown_status t) = true) todos →
  format_loop py_repr i todos lines
  = Ok (lines ++ imap (λ j t, dict_line py_repr (i + j) t) todos).
Proof.
  intros Hall. revert i lines.
  induction Hall as [|t rest Ht _ IH]; intros i lines.
  - simpl. by rewrite app_nil_r.
  - rewrite imap_cons. cbn [format_loop]. fold (shown_status t).
    rewrite (status_icon_get_hashable _ Ht). cbn [res_bind].
    assert (format_loop py_repr (S i) rest (lines ++ [dict_line py_repr i t])
            = Ok (lines ++ dict_line py_repr (i + 0) t
                    :: imap ((λ j t, dict_line py_repr (i + j) t) ∘ S) rest)) as Hstep.
    { rewrite IH, <- app_assoc, Nat.add_0_r. cbn [app]. do 3 f_equal.
      apply imap_ext. intros j t' _. simpl. f_equal. lia. }
    unfold dict_line at 1 in Hstep.
    by destruct (py_eq_str (shown_status t) "in_progress").
Qed.

Lemma format_loop_raises i todos lines :
  Exists (λ t, hashable (shown_status t) = false) todos →
  format_loop py_repr i todos lines = Raise TypeError.
Proof.
  intros Hex. revert i lines.
  induction Hex as [t rest Ht|t rest _ IH]; intros i lines; cbn [format_loop];
    fold (shown_status t).
  - by rewrite (status_icon_get_unhashable _ Ht).
  - destruct (hashable (shown_status t)) eqn:Ht.
    + rewrite (status_icon_get_hashable _ Ht). cbn [res_bind].
      destruct (py_eq_str (shown_status t) "in_progress"); apply IH.
    + by rewrite (status_icon_get_unhashable _ Ht).
Qed.

Lemma format_lines_dicts todos :
  Forall (λ t, hashable (shown_status t) = true) todos →
  format_lines py_repr todos
  = Ok ("Todo List:" :: imap (λ j t, dict_line py_repr (S j) t) todos
          ++ [summary_line todos]).
Proof.
  intros Hall. unfold format_lines. by rewrite (format_loop_dicts _ _ _ Hall).
Qed.

(** X18: the one way [_format_todos] fails. It raises (a TypeError) exactly
    when some dict of the list has a status that is a list or a dict, which
    cannot key the icon table; on every other list, the empty one
    included, it returns a text. *)
Theorem _format_todos_raises_iff todos :
  _format_todos py_repr todos = Raise TypeError
  ↔ ∃ t, t ∈ todos ∧ hashable (shown_status t) = false.
Proof.
  rewrite <- Exists_exists. split.
  - intros Hraise. destruct (hashable_split todos) as [Hall|Hex]; [|done].
    destruct todos as [|t rest]; [discriminate|].
    unfold _format_todos in Hraise. by rewrite (format_lines_dicts _ Hall) in Hraise.
  - intros Hex. destruct todos as [|t rest]; [by apply Exists_nil in Hex|].
    unfold _format_todos, format_lines. by rewrite (format_loop_raises _ _ _ Hex).
Qed.

(** X19: the shape of the rendering of any list of dicts whose statuses can
    be hashed (normalised or not): the header, then one line per dict, in
    order and numbered from 1, where a missing status shows as pending, a
    missing content or activeForm as the empty text, then the summary. *)
Theorem format_lines_shape todos :
  Forall (λ t, hashable (shown_status t) = true) todos →
  ∃ lines,
    format_lines py_repr todos = Ok lines
    ∧ length lines = length todos + 2
    ∧ lines !! 0 = Some "Todo List:"
    ∧ (∀ i t, todos !! i = Some t → lines !! S i = Some (dict_line py_repr (S i) t))
    ∧ lines !! S (length todos) = Some (summary_line todos).
Proof.
  intros Hall. eexists. split; [by apply format_lines_dicts|].
  split; [|split; [done|split]].
  - cbn [length]. rewrite length_app, length_imap. simpl. lia.
  - intros i t Hi. rewrite lookup_cons, lookup_app_l.
    + by rewrite list_lookup_imap, Hi.
    + rewrite length_imap. by eapply lookup_lt_Some.
  - rewrite lookup_cons, lookup_app_r by (rewrite length_imap; lia).
    by rewrite length_imap, Nat.sub_diag.
Qed.

(** X22: icon and count disagree on a dict without a status. On a list of
    dicts none of which has a "status" key, every line carries the pending
    icon "[ ]" and the content, while the summary counts no task at all:
    the icon lookup defaults the status to "pending", the counts do not. *)
Theorem format_without_status todos :
  Forall (λ t : pydict, t !! "status" = None) todos →
  format_lines py_repr todos
  = Ok ("Todo List:"
          :: imap (λ j t, todo_line py_repr (S j) "[ ]" (dict_get t "content" (PStr ""))) todos
          ++ [nl +:+ "Summary: 0 pending, 0 in progress, 0 completed"]).
Proof.
  intros Hall.
  assert (∀ t, t ∈ todos → shown_status t = PStr "pending"
                          ∧ dict_get t "status" PNone = PNone) as Hst.
  { intros t Ht. rewrite Forall_forall in Hall.
    unfold shown_status, dict_get. by rewrite (Hall t Ht). }
  rewrite format_lines_dicts.
  - do 3 f_equal.
    + apply imap_ext. intros j t Hj.
      destruct (Hst t) as [Hs _]; [by eapply list_elem_of_lookup_2|].
      unfold dict_line. by rewrite Hs.
    + unfold summary_line.
      assert (∀ s, count_status s todos = 0) as Hc.
      { intros s. unfold count_status. clear Hall.
        induction todos as [|t rest IH]; [done|].
        rewrite count_if_cons, IH.
        - destruct (Hst t) as [_ ->]; [by left|]. done.
        - intros t' Ht'. apply Hst. by right. }
      by rewrite !Hc.
  - apply Forall_forall. intros t Ht. by destruct (Hst t Ht) as [-> _].
Qed.

End DictFormatter.

(** ** Closed instances of the further properties *)

(** X2 at the sessions "s1" and "s2". *)
Lemma sessions_independent_witness :
  (_get_todos (_get_session_key (http_ctx "s2"))
     (write_todos repr_unused [raw_fix_bug] "2026-01-01" (http_ctx "s1")
        (<["s2" := validated [raw_write_docs]]> _session_todos_init)).2).1
  = (_get_todos (_get_session_key (http_ctx "s2"))
       (<["s2" := validated [raw_write_docs]]> _session_todos_init)).1.
Proof.
  apply (sessions_independent repr_unused (http_ctx "s1") (http_ctx "s2") "s1" "s2");
    [reflexivity|discriminate|reflexivity|discriminate|discriminate].
Defined.

(** X3 at the client identifier "c1" and the session identifier "c1". *)
Lemma client_id_shares_key_witness :
  (_get_todos (_get_session_key (http_ctx "c1"))
     (write_todos repr_unused [raw_fix_bug] "2026-01-01" (client_ctx "c1")
        _session_todos_init).2).1
  = validated [raw_fix_bug].
Proof.
  apply (client_id_shares_key repr_unused (client_ctx "c1") (http_ctx "c1") "c1");
    [reflexivity|reflexivity|discriminate|reflexivity].
Defined.

(** X4 at a context with no identifiers and one with empty identifiers. *)
Lemma anonymous_contexts_share_witness :
  _get_session_key bare_ctx = "default"
  ∧ (_get_todos (_get_session_key blank_ctx)
       (write_todos repr_unused [raw_fix_bug] "2026-01-01" bare_ctx
          _session_todos_init).2).1
    = validated [raw_fix_bug].
Proof.
  apply (anonymous_contexts_share repr_unused bare_ctx blank_ctx); split; reflexivity.
Defined.

(** X7 at two writes of the session "s1". *)
Lemma write_overwrites_witness :
  (write_todos repr_unused [raw_write_docs] "2026-01-02" (http_ctx "s1")
     (write_todos repr_unused [raw_fix_bug] "2026-01-01" (http_ctx "s1")
        _session_todos_init).2).2
  = (write_todos repr_unused [raw_write_docs] "2026-01-02" (http_ctx "s1")
       _session_todos_init).2.
Proof.
  apply (write_overwrites repr_unused (http_ctx "s1") (http_ctx "s1")). reflexivity.
Defined.

(** X8 at writes of the sessions "s1" and "s2". *)
Lemma writes_commute_witness :
  (write_todos repr_unused [raw_write_docs] "2026-01-02" (http_ctx "s2")
     (write_todos repr_unused [raw_fix_bug] "2026-01-01" (http_ctx "s1")
        _session_todos_init).2).2
  = (write_todos repr_unused [raw_fix_bug] "2026-01-01" (http_ctx "s1")
       (write_todos repr_unused [raw_write_docs] "2026-01-02" (http_ctx "s2")
          _session_todos_init).2).2.
Proof.
  apply (writes_commute repr_unused (http_ctx "s1") (http_ctx "s2")). discriminate.
Defined.

(** X9 at the session "s1", present before an empty write of it and a
    write of "s2". *)
Lemma keys_never_deleted_witness :
  "s1" ∈ dom (run_calls repr_unused
                [CallWrite [] "2026-01-01" (http_ctx "s1");
                 CallWrite [raw_fix_bug] "2026-01-02" (http_ctx "s2")]
                (<["s1" := validated [raw_write_docs]]> _session_todos_init)).
Proof.
  apply (keys_never_deleted repr_unused).
  apply elem_of_dom. eexists. apply lookup_insert_eq.
Defined.

(** X10 at a session that was only read. *)
Lemma touched_keys_present_witness :
  "s2" ∈ dom (run_calls repr_unused
                [CallGet "s2"; CallWrite [raw_fix_bug] "2026-01-01" (http_ctx "s1")]
                _session_todos_init).
Proof.
  apply (touched_keys_present repr_unused _ (CallGet "s2")); [|reflexivity].
  apply list_elem_of_here.
Defined.

(** X11 at a write of "s1" followed by a read of it and a write of "s2". *)
Lemma last_write_stands_witness :
  run_calls repr_unused
    ([CallWrite [raw_write_docs] "2026-01-01" (http_ctx "s1")]
       ++ CallWrite [raw_fix_bug] "2026-01-02" (http_ctx "s1")
       :: [CallGet "s1"; CallWrite [] "2026-01-03" (http_ctx "s2")])
    _session_todos_init
    !! _get_session_key (http_ctx "s1")
  = Some (validated [raw_fix_bug]).
Proof.
  apply (last_write_stands repr_unused).
  repeat constructor; simpl; [tauto|discriminate].
Defined.

(** X12 at the session "s1" after one write. *)
Lemma write_back_read_witness :
  (write_todos repr_unused (PDict <$> validated [raw_fix_bug]) "2026-01-02" (http_ctx "s1")
     (run_calls repr_unused [CallWrite [raw_fix_bug] "2026-01-01" (http_ctx "s1")]
        _session_todos_init)).2
  = run_calls repr_unused [CallWrite [raw_fix_bug] "2026-01-01" (http_ctx "s1")]
      _session_todos_init.
Proof.
  apply (write_back_read repr_unused _ "s1"); [|reflexivity].
  vm_compute. reflexivity.
Defined.

(** X17 at the dict stored for an entry that carried a fourth key. *)
Lemma stored_dict_keys_witness :
  dom (todo_dict (PStr "T") (PStr "T") (PStr "pending")) = todo_keys.
Proof.
  apply (stored_dict_keys repr_unused
           [CallWrite [PDict (<["priority" := PInt 1]> dict_content_only)]
              "2026-01-01" (http_ctx "s1")]
           "s1" [todo_dict (PStr "T") (PStr "T") (PStr "pending")]).
  - vm_compute. reflexivity.
  - apply list_elem_of_here.
Defined.

(** X19 at a dict without status followed by an unrecognised status. *)
Lemma format_lines_shape_witness :
  ∃ lines,
    format_lines repr_unused [dict_content_only; {[ "status" := PInt 7 ]}] = Ok lines
    ∧ length lines = 4
    ∧ lines !! 0 = Some "Todo List:"
    ∧ (∀ i t, [dict_content_only; {[ "status" := PInt 7 ]}] !! i = Some t →
              lines !! S i = Some (dict_line repr_unused (S i) t))
    ∧ lines !! 3 = Some (summary_line [dict_content_only; {[ "status" := PInt 7 ]}]).
Proof.
  apply (format_lines_shape repr_unused [dict_content_only; {[ "status" := PInt 7 ]}]).
  repeat constructor.
Defined.

(** X22 at one dict with a content only. *)
Lemma format_without_status_witness :
  format_lines repr_unused [dict_content_only]
  = Ok ["Todo List:"; "1. [ ] T"; nl +:+ "Summary: 0 pending, 0 in progress, 0 completed"].
Proof.
  apply (format_without_status repr_unused [dict_content_only]).
  repeat constructor.
Defined.
